(** * folium_vector_icon: geometry and markup of the arrow icon

    A shallow embedding of [folium_vector_icon.py].

    Numbers.  Python's [float] and [int] are embedded as the real numbers
    [R]; results of [math.ceil] and [math.floor] are integers [Z] injected
    with [IZR].  Rounding of binary64 arithmetic and the non-finite values
    [nan] and [inf] are outside this model.

    Strings.  The markup built with [str.format] is embedded as a list of
    tokens: literal text, and numbers tagged with the format specification
    they were written under (the decimal expansion itself is left
    symbolic).

    Exceptions.  A Python call either returns a value or raises; this is
    the type [outcome]. *)

From Stdlib Require Import Reals Lra Lia ZArith List String Ascii.
Import ListNotations.
Open Scope R_scope.

(** ** Python outcomes *)

Inductive exn : Type :=
| KeyError (key : string)
| IndexError
| AttributeError (attr : string)
| ValueError
| TypeError
| ZeroDivisionError.

Inductive outcome (A : Type) : Type :=
| Ok (a : A)
| Raise (e : exn).

Arguments Ok {A} a.
Arguments Raise {A} e.

Definition bind {A B : Type} (m : outcome A) (k : A -> outcome B) : outcome B :=
  match m with
  | Ok a => k a
  | Raise e => Raise e
  end.

Notation "x <- m ;; k" := (bind m (fun x => k))
  (at level 61, m at next level, right associativity).

(** ** [_BBox]: the named tuple [(x0, y0, x, y)] *)

Module BBox.
Record t : Type := mk { x0 : R; y0 : R; x : R; y : R }.
End BBox.

(** ** [_MetrixHandler] *)

Module MetrixHandler.

Record t : Type := mk { length : R; angle : R; margin : R }.

Definition cos (self : t) : R := Rtrigo_def.cos (angle self).

Definition sin (self : t) : R := Rtrigo_def.sin (angle self).

Definition x (self : t) : R := length self * cos self.

Definition y (self : t) : R := length self * sin self.

Definition bbox (self : t) : BBox.t :=
  let '(bx, bx0) :=
    if Rle_dec 0 (x self)
    then (IZR (Zceil (x self)), - margin self)
    else (IZR (Zfloor (x self)), IZR (Zfloor (x self)) - margin self) in
  let '(by_, by0) :=
    if Rle_dec 0 (y self)
    then (IZR (Zceil (y self)), - margin self)
    else (IZR (Zfloor (y self)), IZR (Zfloor (y self)) - margin self) in
  BBox.mk bx0 by0 (Rabs bx + 2 * margin self) (Rabs by_ + 2 * margin self).

Definition size (self : t) : R * R :=
  (Rabs (BBox.x (bbox self)), Rabs (BBox.y (bbox self))).

Definition anchor (self : t) (anchor : string) : outcome (R * R) :=
  if String.eqb anchor "head" then
    Ok (Rabs (BBox.x0 (bbox self)) + x self,
        Rabs (BBox.y0 (bbox self)) + y self)
  else if String.eqb anchor "mid" then
    Ok (Rabs (BBox.x0 (bbox self)) + x self / 2,
        Rabs (BBox.y0 (bbox self)) + y self / 2)
  else
    Ok (Rabs (BBox.x0 (bbox self)), Rabs (BBox.y0 (bbox self))).

Definition rotate (self : t) (px py : R) : R * R :=
  (cos self * px - sin self * py, sin self * px + cos self * py).

End MetrixHandler.

(** ** Markup and [str.format]

    A formatted string is a list of tokens.  [Num spec r] stands for the
    text that [format(r, spec)] produces: [".7g"] for the path
    coordinates, the empty specification for [str(r)]. *)

Inductive token : Type :=
| Text (s : string)
| Num (spec : string) (r : R).

Definition markup : Type := list token.

(** The values handed to [str.format] in this module. *)

Inductive pyval : Type :=
| VNum (r : R)
| VStr (m : markup)
| VBBox (b : BBox.t).

(** A format string is cut into literal text and replacement fields
    [{name.attr:spec}]; an empty [name] is an automatically numbered
    positional field.  Brace escapes, conversions, explicit indices and
    nested fields do not occur in the templates below and are not
    modelled. *)

Inductive segment : Type :=
| Lit (s : string)
| Field (name attr spec : string).

Definition snoc (s : string) (c : ascii) : string :=
  (s ++ String c EmptyString)%string.

(** [cut c s] splits [s] at the first occurrence of [c]. *)

Fixpoint cut (c : ascii) (s : string) : string * string :=
  match s with
  | EmptyString => (EmptyString, EmptyString)
  | String d s' =>
      if Ascii.eqb d c then (EmptyString, s')
      else let '(a, b) := cut c s' in (String d a, b)
  end.

Definition mk_field (body : string) : segment :=
  let '(field_name, spec) := cut ":" body in
  let '(name, attr) := cut "." field_name in
  Field name attr spec.

(** [lit] is the literal text read so far; [fld] is the text of the
    replacement field being read, if a brace is open. *)

Fixpoint parse (s : string) (lit : string) (fld : option string)
  : outcome (list segment) :=
  match s with
  | EmptyString =>
      match fld with
      | None => Ok [Lit lit]
      | Some _ => Raise ValueError
      end
  | String c s' =>
      match fld with
      | None =>
          if Ascii.eqb c "{" then
            rest <- parse s' EmptyString (Some EmptyString) ;;
            Ok (Lit lit :: rest)
          else if Ascii.eqb c "}" then Raise ValueError
          else parse s' (snoc lit c) None
      | Some f =>
          if Ascii.eqb c "}" then
            rest <- parse s' EmptyString None ;;
            Ok (mk_field f :: rest)
          else parse s' lit (Some (snoc f c))
      end
  end.

Fixpoint lookup (kwargs : list (string * pyval)) (name : string)
  : outcome pyval :=
  match kwargs with
  | [] => Raise (KeyError name)
  | (k, v) :: rest => if String.eqb k name then Ok v else lookup rest name
  end.

Definition positional (args : list pyval) (i : nat) : outcome pyval :=
  match nth_error args i with
  | Some v => Ok v
  | None => Raise IndexError
  end.

Definition getattr (v : pyval) (attr : string) : outcome pyval :=
  if String.eqb attr "" then Ok v
  else
    match v with
    | VBBox b =>
        if String.eqb attr "x0" then Ok (VNum (BBox.x0 b))
        else if String.eqb attr "y0" then Ok (VNum (BBox.y0 b))
        else if String.eqb attr "x" then Ok (VNum (BBox.x b))
        else if String.eqb attr "y" then Ok (VNum (BBox.y b))
        else Raise (AttributeError attr)
    | _ => Raise (AttributeError attr)
    end.

Definition format_value (v : pyval) (spec : string) : outcome markup :=
  match v with
  | VNum r => Ok [Num spec r]
  | VStr m => if String.eqb spec "" then Ok m else Raise ValueError
  | VBBox b =>
      if String.eqb spec "" then
        Ok [Text "_BBox(x0="; Num "" (BBox.x0 b);
            Text ", y0="; Num "" (BBox.y0 b);
            Text ", x="; Num "" (BBox.x b);
            Text ", y="; Num "" (BBox.y b); Text ")"]
      else Raise TypeError
  end.

(** Concatenation keeps markup in normal form: no empty text, no two
    adjacent text tokens. *)

Definition text (s : string) (m : markup) : markup :=
  if String.eqb s "" then m
  else
    match m with
    | Text s' :: m' => Text (s ++ s') :: m'
    | _ => Text s :: m
    end.

Fixpoint cat (a b : markup) : markup :=
  match a with
  | [] => b
  | Text s :: a' => text s (cat a' b)
  | Num spec r :: a' => Num spec r :: cat a' b
  end.

(** Fields are filled from left to right; [auto] is the index of the next
    automatically numbered field.  The first field that cannot be filled
    raises. *)

Fixpoint fill (segs : list segment) (auto : nat)
    (args : list pyval) (kwargs : list (string * pyval)) : outcome markup :=
  match segs with
  | [] => Ok []
  | Lit s :: rest =>
      m <- fill rest auto args kwargs ;;
      Ok (text s m)
  | Field name attr spec :: rest =>
      v <- (if String.eqb name "" then positional args auto
            else lookup kwargs name) ;;
      v <- getattr v attr ;;
      t <- format_value v spec ;;
      m <- fill rest (if String.eqb name "" then S auto else auto)
             args kwargs ;;
      Ok (cat t m)
  end.

Definition str_format (template : string)
    (args : list pyval) (kwargs : list (string * pyval)) : outcome markup :=
  segs <- parse template EmptyString None ;;
  fill segs 0 args kwargs.

(** ** Arithmetic of the Python operators used by the icon *)

(** [a / b] raises [ZeroDivisionError] on a zero divisor, for integers
    and for floats alike. *)

Definition py_div (a b : R) : outcome R :=
  if Req_dec_T b 0 then Raise ZeroDivisionError else Ok (a / b).

(** [math.hypot] and [math.atan2]. *)

Definition hypot (a b : R) : R := sqrt (a * a + b * b).

Definition atan2 (b a : R) : R :=
  if Rlt_dec 0 a then atan (b / a)
  else if Rlt_dec a 0 then
    if Rle_dec 0 b then atan (b / a) + PI else atan (b / a) - PI
  else if Rlt_dec 0 b then PI / 2
  else if Rlt_dec b 0 then - (PI / 2)
  else 0.

(** ** Head and body metrics *)

Module VectorIconHead.
Record t : Type := mk { width : R; length : R }.
End VectorIconHead.

Module VectorIconBody.
Record t : Type := mk { width : R }.
End VectorIconBody.

Definition DEFAULT_HEAD : VectorIconHead.t := VectorIconHead.mk 8 10.
Definition DEFAULT_BODY : VectorIconBody.t := VectorIconBody.mk 2.

(** ** [folium.DivIcon]: the arguments [VectorIcon] hands to its base
    class *)

Module DivIcon.
Record t : Type := mk {
  html : markup;
  icon_size : R * R;
  icon_anchor : R * R;
  popup_anchor : option (Z * Z);
  class_name : string
}.
End DivIcon.

(** ** [VectorIcon] *)

Module VectorIcon.

Definition dq : string := String "034" EmptyString.

Definition path_template : string :=
  ("<path d=" ++ dq ++ "M {:.7g} {:.7g} l {:.7g} {:.7g} "
   ++ "l {:.7g} {:.7g} l {:.7g} {:.7g} "
   ++ "l {:.7g} {:.7g} l {:.7g} {:.7g} "
   ++ "l {:.7g} {:.7g} Z" ++ dq ++ " />")%string.

Definition group_template : string :=
  ("<g stroke=" ++ dq ++ "{line_color}" ++ dq
   ++ " fill=" ++ dq ++ "{color}" ++ dq
   ++ " stroke-width=" ++ dq ++ "{line_width}" ++ dq ++ ">"
   ++ "{}</g>")%string.

Definition group_scale_template : string :=
  ("<g stroke=" ++ dq ++ "{line_color}" ++ dq
   ++ " fill=" ++ dq ++ "{color}" ++ dq
   ++ " stroke-width=" ++ dq ++ "{line_width}" ++ dq
   ++ " transform=" ++ dq ++ "scale({scale})" ++ dq ++ ">"
   ++ "{}</g>")%string.

Definition svg_template : string :=
  ("<svg"
   ++ " xmlns=" ++ dq ++ "http://www.w3.org/2000/svg" ++ dq
   ++ " version=" ++ dq ++ "1.1" ++ dq
   ++ " viewBox=" ++ dq ++ "{bbox.x0} {bbox.y0} {bbox.x} {bbox.y}" ++ dq
   ++ ">"
   ++ "{vector}"
   ++ "</svg>")%string.

Definition pair_args (p : R * R) : list pyval := [VNum (fst p); VNum (snd p)].

(** The resolver built at the start of [__init__]. *)

Definition handler (length angle : R)
    (head : VectorIconHead.t) (body : VectorIconBody.t) : MetrixHandler.t :=
  let angle := angle - PI / 2 in
  MetrixHandler.mk length angle
    (Rmax (Rmax (VectorIconHead.length head) (VectorIconHead.width head))
          (VectorIconBody.width body)).

(** The [<path>] element: the first [format] call of [__init__]. *)

Definition path (h : MetrixHandler.t) (length : R)
    (head : VectorIconHead.t) (body : VectorIconBody.t) : outcome markup :=
  let hw := VectorIconHead.width head in
  let hl := VectorIconHead.length head in
  let bw := VectorIconBody.width body in
  str_format path_template
    (pair_args (MetrixHandler.rotate h 0 (- bw / 2))
     ++ pair_args (MetrixHandler.rotate h 0 bw)
     ++ pair_args (MetrixHandler.rotate h (Rmax (length - hl) 0) 0)
     ++ pair_args (MetrixHandler.rotate h 0 ((hw - bw) / 2))
     ++ pair_args (MetrixHandler.rotate h hl (- hw / 2))
     ++ pair_args (MetrixHandler.rotate h (- hl) (- hw / 2))
     ++ pair_args (MetrixHandler.rotate h 0 ((hw - bw) / 2)))
    [].

(** The [<g>] element: the second [format] call, with the path as its
    only argument. *)

Definition select_group_template (length : R) (head : VectorIconHead.t)
  : string :=
  if Rlt_dec (VectorIconHead.length head) length
  then group_template
  else group_scale_template.

Definition group (length : R) (head : VectorIconHead.t) (vector : markup)
  : outcome markup :=
  str_format (select_group_template length head) [VStr vector] [].

Definition init (length angle : R)
    (head : VectorIconHead.t) (body : VectorIconBody.t)
    (color : string) (border_width : R) (border_color : option string)
    (anchor : string) (popup_anchor : option (Z * Z)) (class_name : string)
  : outcome DivIcon.t :=
  let h := handler length angle head body in
  vector <- path h length head body ;;
  vector <- group length head vector ;;
  let bbox := MetrixHandler.bbox h in
  scale <- py_div length (VectorIconHead.length head) ;;
  html <- str_format svg_template []
            [("angle"%string, VNum (MetrixHandler.angle h));
             ("vector"%string, VStr vector);
             ("bbox"%string, VBBox bbox);
             ("scale"%string, VNum scale);
             ("color"%string, VStr [Text color]);
             ("line_width"%string, VNum border_width);
             ("line_color"%string,
              VStr [Text (match border_color with
                          | Some c => c
                          | None => color
                          end)])] ;;
  let icon_size := MetrixHandler.size h in
  icon_anchor <- MetrixHandler.anchor h anchor ;;
  Ok (DivIcon.mk html icon_size icon_anchor popup_anchor class_name).

(** [from_comp]: [components[1]] is read before [components[0]]. *)

Definition item (components : list R) (i : nat) : outcome R :=
  match nth_error components i with
  | Some v => Ok v
  | None => Raise IndexError
  end.

Definition from_comp (components : list R)
    (head : VectorIconHead.t) (body : VectorIconBody.t)
    (color : string) (border_width : R) (border_color : option string)
    (anchor : string) (popup_anchor : option (Z * Z)) (class_name : string)
  : outcome DivIcon.t :=
  c1 <- item components 1 ;;
  c0 <- item components 0 ;;
  let intensity := hypot c1 c0 in
  c1' <- item components 1 ;;
  c0' <- item components 0 ;;
  let angle := atan2 c1' c0' in
  init intensity angle head body color border_width border_color
    anchor popup_anchor class_name.

End VectorIcon.

(** ** Specification-side definitions

    These follow the wording of the specification and are compared with
    the definitions above. *)

(** Per axis: the far edge is the endpoint offset rounded away from zero,
    the near edge lies [margin] before the smaller of the origin and the
    far edge. *)

Definition spec_far_edge (offset : R) : R :=
  if Rle_dec 0 offset then IZR (Zceil offset) else IZR (Zfloor offset).

Definition spec_near_edge (offset margin : R) : R :=
  if Rle_dec 0 offset then - margin else spec_far_edge offset - margin.

Definition spec_extent (offset margin : R) : R :=
  Rabs (spec_far_edge offset) + 2 * margin.

(** [within lo len v]: [v] lies in the interval [[lo, lo + len]]. *)

Definition within (lo len v : R) : Prop := lo <= v <= lo + len.

(** The arrow template: one move and six relative line deltas. *)

Definition spec_deltas (length : R)
    (head : VectorIconHead.t) (body : VectorIconBody.t) : list (R * R) :=
  let hw := VectorIconHead.width head in
  let hl := VectorIconHead.length head in
  let bw := VectorIconBody.width body in
  [ (0, - bw / 2);
    (0, bw);
    (Rmax (length - hl) 0, 0);
    (0, (hw - bw) / 2);
    (hl, - hw / 2);
    (- hl, - hw / 2);
    (0, (hw - bw) / 2) ].

(** A path element that moves to the first pair, draws a relative line
    for every further pair, and closes. *)

Definition spec_pair (p : R * R) : markup :=
  [Num ".7g" (fst p); Text " "; Num ".7g" (snd p)].

Definition spec_path (ps : list (R * R)) : markup :=
  match ps with
  | [] => []
  | p :: rest =>
      cat [Text ("<path d=" ++ VectorIcon.dq ++ "M ")]
        (cat (spec_pair p)
           (cat (flat_map (fun q => Text " l " :: spec_pair q) rest)
              [Text (" Z" ++ VectorIcon.dq ++ " />")]))
  end.

Definition rotate_pair (h : MetrixHandler.t) (d : R * R) : R * R :=
  MetrixHandler.rotate h (fst d) (snd d).

Definition norm2 (p : R * R) : R := fst p * fst p + snd p * snd p.

(** Inputs used in the examples. *)

Definition example_handler : MetrixHandler.t := MetrixHandler.mk 100 0 10.

Definition long_head : VectorIconHead.t := VectorIconHead.mk 8 20.

(** ** The polygon handed to the path

    [path_deltas] lists the seven results of [rotate] that [__init__]
    unpacks into the path template, in the order of the call, as exact
    values before they are written with seven significant digits.  The
    first pair is an absolute move and every further pair is relative to
    the point reached before, so the vertices these values describe are
    their running sums. *)

Definition path_deltas (h : MetrixHandler.t) (length : R)
    (head : VectorIconHead.t) (body : VectorIconBody.t) : list (R * R) :=
  let hw := VectorIconHead.width head in
  let hl := VectorIconHead.length head in
  let bw := VectorIconBody.width body in
  [ MetrixHandler.rotate h 0 (- bw / 2);
    MetrixHandler.rotate h 0 bw;
    MetrixHandler.rotate h (Rmax (length - hl) 0) 0;
    MetrixHandler.rotate h 0 ((hw - bw) / 2);
    MetrixHandler.rotate h hl (- hw / 2);
    MetrixHandler.rotate h (- hl) (- hw / 2);
    MetrixHandler.rotate h 0 ((hw - bw) / 2) ].

Fixpoint trace (pen : R * R) (deltas : list (R * R)) : list (R * R) :=
  match deltas with
  | [] => []
  | d :: rest =>
      let p := (fst pen + fst d, snd pen + snd d) in
      p :: trace p rest
  end.

Definition polygon (h : MetrixHandler.t) (length : R)
    (head : VectorIconHead.t) (body : VectorIconBody.t) : list (R * R) :=
  trace (0, 0) (path_deltas h length head body).

(** The vertices of the arrow before rotation: tail corners, shaft
    corners, head corners and the tip on the axis. *)

Definition template_vertices (length : R)
    (head : VectorIconHead.t) (body : VectorIconBody.t) : list (R * R) :=
  let hw := VectorIconHead.width head in
  let hl := VectorIconHead.length head in
  let bw := VectorIconBody.width body in
  let shaft := Rmax (length - hl) 0 in
  [ (0, - (bw / 2));
    (0, bw / 2);
    (shaft, bw / 2);
    (shaft, hw / 2);
    (shaft + hl, 0);
    (shaft, - (hw / 2));
    (shaft, - (bw / 2)) ].

Definition in_bbox (b : BBox.t) (p : R * R) : Prop :=
  within (BBox.x0 b) (BBox.x b) (fst p)
  /\ within (BBox.y0 b) (BBox.y b) (snd p).


(** The resolver of the same vector turned to another angle. *)

Definition with_angle (h : MetrixHandler.t) (a : R) : MetrixHandler.t :=
  MetrixHandler.mk (MetrixHandler.length h) a (MetrixHandler.margin h).

Definition is_integer (r : R) : Prop := exists z : Z, r = IZR z.

(** * Theorems *)

(** ** Rounding *)

Lemma ceil_of_nonneg (v : R) : 0 <= v -> v <= IZR (Zceil v) /\ 0 <= IZR (Zceil v).
Proof.
  intros Hv. pose proof (Zceil_bound v) as [_ Hc]. split; lra.
Qed.

Lemma floor_of_neg (v : R) : ~ 0 <= v -> IZR (Zfloor v) <= v /\ IZR (Zfloor v) < 0.
Proof.
  intros Hv. pose proof (Zfloor_bound v) as [Hf _]. split; lra.
Qed.

Lemma Zceil_IZR (z : Z) : Zceil (IZR z) = z.
Proof. apply Zceil_eq. lra. Qed.

(** ** One axis of the bounding box *)

Lemma far_edge_cases (v : R) :
  (0 <= v /\ spec_far_edge v = IZR (Zceil v) /\ v <= spec_far_edge v
     /\ Rabs (spec_far_edge v) = spec_far_edge v)
  \/ (v < 0 /\ spec_far_edge v = IZR (Zfloor v) /\ spec_far_edge v <= v
     /\ Rabs (spec_far_edge v) = - spec_far_edge v).
Proof.
  unfold spec_far_edge. destruct (Rle_dec 0 v) as [Hv | Hv].
  - left. destruct (ceil_of_nonneg v Hv) as [H1 H2].
    repeat split; try lra. now apply Rabs_pos_eq.
  - right. destruct (floor_of_neg v Hv) as [H1 H2].
    repeat split; try lra. apply Rabs_left; lra.
Qed.

Lemma bbox_fields (h : MetrixHandler.t) :
  MetrixHandler.bbox h =
    BBox.mk (spec_near_edge (MetrixHandler.x h) (MetrixHandler.margin h))
            (spec_near_edge (MetrixHandler.y h) (MetrixHandler.margin h))
            (spec_extent (MetrixHandler.x h) (MetrixHandler.margin h))
            (spec_extent (MetrixHandler.y h) (MetrixHandler.margin h)).
Proof.
  unfold MetrixHandler.bbox, spec_extent, spec_near_edge, spec_far_edge.
  destruct (Rle_dec 0 (MetrixHandler.x h));
    destruct (Rle_dec 0 (MetrixHandler.y h)); reflexivity.
Qed.

Lemma axis_bounds (v m : R) :
  0 <= m ->
  2 * m <= spec_extent v m
  /\ spec_near_edge v m <= Rmin 0 v - m
  /\ Rmax 0 v + m <= spec_near_edge v m + spec_extent v m
  /\ within (spec_near_edge v m) (spec_extent v m) v
  /\ Rabs (spec_near_edge v m) = - spec_near_edge v m.
Proof.
  intros Hm. unfold within, spec_extent, spec_near_edge.
  destruct (far_edge_cases v) as [(Hv & _ & Hf & Ha) | (Hv & _ & Hf & Ha)];
    rewrite Ha; destruct (Rle_dec 0 v) as [Hd | Hd]; try lra;
    unfold Rmin, Rmax; destruct (Rle_dec 0 v); try lra;
    (repeat split; try lra); apply Rabs_left1; lra.
Qed.

(** The three anchors of one axis, measured from the near edge. *)

Lemma axis_anchor (v m : R) :
  0 <= m ->
  let a := Rabs (spec_near_edge v m) in
  within 0 (spec_extent v m) a
  /\ within 0 (spec_extent v m) (a + v)
  /\ within 0 (spec_extent v m) (a + v / 2).
Proof.
  intros Hm a. subst a.
  destruct (axis_bounds v m Hm) as (H1 & H2 & H3 & H4 & H5).
  rewrite H5. unfold within in *. revert H2 H3. unfold Rmin, Rmax.
  destruct (Rle_dec 0 v); intros; repeat split; lra.
Qed.

(** ** The bounding box *)

(** C1: per axis the box has near edge [-margin] and far edge
    [ceil offset] for a non-negative offset, far edge [floor offset] and
    near edge [far - margin] otherwise; its extent is
    [abs far + 2 * margin]; so with a non-negative margin both extents
    are at least [2 * margin], the box reaches from [margin] before the
    tail to [margin] beyond the tip, and the tip lies in the box. *)
Theorem bbox_contains_tip (h : MetrixHandler.t) :
  0 <= MetrixHandler.margin h ->
  let m := MetrixHandler.margin h in
  let x := MetrixHandler.x h in
  let y := MetrixHandler.y h in
  let b := MetrixHandler.bbox h in
  (x, y) = (MetrixHandler.length h * cos (MetrixHandler.angle h),
            MetrixHandler.length h * sin (MetrixHandler.angle h))
  /\ BBox.x0 b = spec_near_edge x m /\ BBox.y0 b = spec_near_edge y m
  /\ BBox.x b = Rabs (spec_far_edge x) + 2 * m
  /\ BBox.y b = Rabs (spec_far_edge y) + 2 * m
  /\ 2 * m <= BBox.x b /\ 2 * m <= BBox.y b
  /\ BBox.x0 b <= Rmin 0 x - m /\ Rmax 0 x + m <= BBox.x0 b + BBox.x b
  /\ BBox.y0 b <= Rmin 0 y - m /\ Rmax 0 y + m <= BBox.y0 b + BBox.y b
  /\ within (BBox.x0 b) (BBox.x b) x
  /\ within (BBox.y0 b) (BBox.y b) y.
Proof.
  intros Hm m x y b. subst b. rewrite bbox_fields. cbn [BBox.x0 BBox.y0 BBox.x BBox.y].
  destruct (axis_bounds x m Hm) as (X1 & X2 & X3 & X4 & _).
  destruct (axis_bounds y m Hm) as (Y1 & Y2 & Y3 & Y4 & _).
  fold (spec_extent x m). fold (spec_extent y m).
  repeat split; try assumption; try reflexivity; apply X4 || apply Y4.
Qed.

Lemma bbox_contains_tip_witness :
  0 <= MetrixHandler.margin example_handler
  /\ within (BBox.x0 (MetrixHandler.bbox example_handler))
            (BBox.x (MetrixHandler.bbox example_handler))
            (MetrixHandler.x example_handler).
Proof.
  assert (H : 0 <= MetrixHandler.margin example_handler) by (simpl; lra).
  split; [exact H | apply (bbox_contains_tip example_handler H)].
Defined.

(** ** The anchor *)

Lemma anchor_head (h : MetrixHandler.t) :
  MetrixHandler.anchor h "head" =
    Ok (Rabs (BBox.x0 (MetrixHandler.bbox h)) + MetrixHandler.x h,
        Rabs (BBox.y0 (MetrixHandler.bbox h)) + MetrixHandler.y h).
Proof. reflexivity. Qed.

Lemma anchor_mid (h : MetrixHandler.t) :
  MetrixHandler.anchor h "mid" =
    Ok (Rabs (BBox.x0 (MetrixHandler.bbox h)) + MetrixHandler.x h / 2,
        Rabs (BBox.y0 (MetrixHandler.bbox h)) + MetrixHandler.y h / 2).
Proof. reflexivity. Qed.

Lemma anchor_otherwise (h : MetrixHandler.t) (kind : string) :
  kind <> "head"%string -> kind <> "mid"%string ->
  MetrixHandler.anchor h kind =
    Ok (Rabs (BBox.x0 (MetrixHandler.bbox h)),
        Rabs (BBox.y0 (MetrixHandler.bbox h))).
Proof.
  intros Hh Hm. unfold MetrixHandler.anchor.
  apply String.eqb_neq in Hh. apply String.eqb_neq in Hm.
  now rewrite Hh, Hm.
Qed.

(** C2 (as amended): an anchor kind other than ["head"] and ["mid"],
    whether it is ["tail"] or not an accepted kind at all, raises nothing
    and is answered with the tail anchor [(abs x0, abs y0)]. *)
Theorem anchor_defaults_to_tail (h : MetrixHandler.t) (kind : string) :
  kind <> "head"%string -> kind <> "mid"%string ->
  MetrixHandler.anchor h kind = MetrixHandler.anchor h "tail"
  /\ MetrixHandler.anchor h kind =
       Ok (Rabs (BBox.x0 (MetrixHandler.bbox h)),
           Rabs (BBox.y0 (MetrixHandler.bbox h))).
Proof.
  intros Hh Hm. split.
  - rewrite (anchor_otherwise h kind Hh Hm).
    symmetry. apply anchor_otherwise; discriminate.
  - now apply anchor_otherwise.
Qed.

Lemma anchor_defaults_to_tail_witness :
  MetrixHandler.anchor example_handler "nose" =
  MetrixHandler.anchor example_handler "tail".
Proof.
  apply (anchor_defaults_to_tail example_handler "nose"); discriminate.
Defined.

Lemma example_handler_bbox :
  MetrixHandler.bbox example_handler = BBox.mk (-10) (-10) 120 20.
Proof.
  unfold MetrixHandler.bbox, MetrixHandler.x, MetrixHandler.y,
    MetrixHandler.cos, MetrixHandler.sin, example_handler.
  cbn [MetrixHandler.length MetrixHandler.angle MetrixHandler.margin].
  rewrite cos_0, sin_0, Rmult_1_r, Rmult_0_r.
  destruct (Rle_dec 0 100) as [_ | N]; [| exfalso; lra].
  destruct (Rle_dec 0 0) as [_ | N]; [| exfalso; lra].
  rewrite !Zceil_IZR, !Rabs_pos_eq by lra. f_equal; lra.
Qed.

(** C2 (as stated) fails: the kind ["nose"] raises no error; the call
    returns the tail anchor [(10, 10)] of the example resolver. *)
Lemma anchor_nose_returns :
  MetrixHandler.anchor example_handler "nose" = Ok (10, 10)
  /\ ~ (exists e, MetrixHandler.anchor example_handler "nose" = Raise e).
Proof.
  assert (E : MetrixHandler.anchor example_handler "nose" = Ok (10, 10)).
  { rewrite anchor_otherwise by discriminate.
    rewrite example_handler_bbox. cbn [BBox.x0 BBox.y0].
    rewrite Rabs_left by lra. do 2 f_equal; lra. }
  split; [exact E |]. intros [e He]. rewrite E in He. discriminate.
Qed.

(** C3: the tail anchor is [(abs x0, abs y0)], the head anchor is the
    tail anchor moved by the endpoint offset [(x, y)], and the mid anchor
    is the midpoint of the two, that is the tail anchor moved by
    [(x / 2, y / 2)]. *)
Theorem anchor_tail_mid_head (h : MetrixHandler.t) :
  exists tx ty hx hy mx my,
    MetrixHandler.anchor h "tail" = Ok (tx, ty)
    /\ MetrixHandler.anchor h "head" = Ok (hx, hy)
    /\ MetrixHandler.anchor h "mid" = Ok (mx, my)
    /\ tx = Rabs (BBox.x0 (MetrixHandler.bbox h))
    /\ ty = Rabs (BBox.y0 (MetrixHandler.bbox h))
    /\ hx = tx + MetrixHandler.x h /\ hy = ty + MetrixHandler.y h
    /\ mx = (tx + hx) / 2 /\ my = (ty + hy) / 2
    /\ mx = tx + MetrixHandler.x h / 2 /\ my = ty + MetrixHandler.y h / 2.
Proof.
  do 6 eexists.
  split; [apply anchor_otherwise; discriminate |].
  split; [apply anchor_head |].
  split; [apply anchor_mid |].
  repeat split; lra.
Qed.

(** C4: with a non-negative margin the anchor of every kind lies in
    [[0, width] x [0, height]] of the bounding box of the same
    resolver. *)
Theorem anchor_within_bbox (h : MetrixHandler.t) (kind : string) :
  0 <= MetrixHandler.margin h ->
  exists ax ay,
    MetrixHandler.anchor h kind = Ok (ax, ay)
    /\ within 0 (BBox.x (MetrixHandler.bbox h)) ax
    /\ within 0 (BBox.y (MetrixHandler.bbox h)) ay.
Proof.
  intros Hm.
  destruct (axis_anchor (MetrixHandler.x h) _ Hm) as (Xt & Xh & Xm).
  destruct (axis_anchor (MetrixHandler.y h) _ Hm) as (Yt & Yh & Ym).
  unfold MetrixHandler.anchor. rewrite bbox_fields.
  cbn [BBox.x0 BBox.y0 BBox.x BBox.y].
  destruct (String.eqb kind "head"); [| destruct (String.eqb kind "mid")];
    do 2 eexists; (split; [reflexivity | split; assumption]).
Qed.

Lemma anchor_within_bbox_witness :
  0 <= MetrixHandler.margin example_handler
  /\ exists ax ay,
       MetrixHandler.anchor example_handler "mid" = Ok (ax, ay)
       /\ within 0 (BBox.x (MetrixHandler.bbox example_handler)) ax
       /\ within 0 (BBox.y (MetrixHandler.bbox example_handler)) ay.
Proof.
  assert (H : 0 <= MetrixHandler.margin example_handler) by (simpl; lra).
  split; [exact H | exact (anchor_within_bbox example_handler "mid" H)].
Defined.

(** ** Rotation *)

Lemma cos_sin_unit (h : MetrixHandler.t) :
  MetrixHandler.cos h * MetrixHandler.cos h
  + MetrixHandler.sin h * MetrixHandler.sin h = 1.
Proof.
  unfold MetrixHandler.cos, MetrixHandler.sin.
  pose proof (sin2_cos2 (MetrixHandler.angle h)) as H.
  unfold Rsqr in H. lra.
Qed.

(** C10: [rotate] is linear and preserves the Euclidean norm: the
    rotated point is [(cos * px - sin * py, sin * px + cos * py)] and its
    squared norm is [px^2 + py^2]. *)
Theorem rotate_isometry (h : MetrixHandler.t) (px py qx qy k : R) :
  MetrixHandler.rotate h px py =
    (cos (MetrixHandler.angle h) * px - sin (MetrixHandler.angle h) * py,
     sin (MetrixHandler.angle h) * px + cos (MetrixHandler.angle h) * py)
  /\ norm2 (MetrixHandler.rotate h px py) = px * px + py * py
  /\ MetrixHandler.rotate h (px + qx) (py + qy) =
       (fst (MetrixHandler.rotate h px py) + fst (MetrixHandler.rotate h qx qy),
        snd (MetrixHandler.rotate h px py) + snd (MetrixHandler.rotate h qx qy))
  /\ MetrixHandler.rotate h (k * px) (k * py) =
       (k * fst (MetrixHandler.rotate h px py),
        k * snd (MetrixHandler.rotate h px py)).
Proof.
  pose proof (cos_sin_unit h) as U.
  unfold norm2, MetrixHandler.rotate. cbn [fst snd].
  repeat split.
  - transitivity
      ((MetrixHandler.cos h * MetrixHandler.cos h
        + MetrixHandler.sin h * MetrixHandler.sin h) * (px * px + py * py)).
    + ring.
    + rewrite U. ring.
  - f_equal; ring.
  - f_equal; ring.
Qed.

(** ** The scenario [VectorIcon(100, pi / 2)] *)

(** With length 100, angle [pi / 2] and the default head and body the
    resolver has margin 10, angle 0 and tip offset [(100, 0)]; its
    bounding box is [(-10, -10, 120, 20)], its size [(120, 20)] and its
    tail anchor [(10, 10)]. *)
Lemma east_100_resolver :
  let h := VectorIcon.handler 100 (PI / 2) DEFAULT_HEAD DEFAULT_BODY in
  MetrixHandler.margin h = 10
  /\ MetrixHandler.angle h = 0
  /\ (MetrixHandler.x h, MetrixHandler.y h) = (100, 0)
  /\ MetrixHandler.bbox h = BBox.mk (-10) (-10) 120 20
  /\ MetrixHandler.size h = (120, 20)
  /\ MetrixHandler.anchor h "tail" = Ok (10, 10).
Proof.
  intros h.
  assert (Hm : MetrixHandler.margin h = 10).
  { subst h. unfold VectorIcon.handler, DEFAULT_HEAD, DEFAULT_BODY.
    cbn [MetrixHandler.margin VectorIconHead.length VectorIconHead.width
         VectorIconBody.width].
    rewrite (Rmax_left 10 8) by lra. apply Rmax_left. lra. }
  assert (Ha : MetrixHandler.angle h = 0).
  { subst h. unfold VectorIcon.handler. cbn [MetrixHandler.angle]. lra. }
  assert (Hx : MetrixHandler.x h = 100).
  { unfold MetrixHandler.x, MetrixHandler.cos. rewrite Ha, cos_0.
    subst h. cbn [VectorIcon.handler MetrixHandler.length]. lra. }
  assert (Hy : MetrixHandler.y h = 0).
  { unfold MetrixHandler.y, MetrixHandler.sin. rewrite Ha, sin_0. lra. }
  assert (Hb : MetrixHandler.bbox h = BBox.mk (-10) (-10) 120 20).
  { unfold MetrixHandler.bbox. rewrite Hx, Hy, Hm.
    destruct (Rle_dec 0 100) as [_ | N]; [| exfalso; lra].
    destruct (Rle_dec 0 0) as [_ | N]; [| exfalso; lra].
    rewrite !Zceil_IZR, !Rabs_pos_eq by lra. f_equal; lra. }
  repeat split; try assumption.
  - now rewrite Hx, Hy.
  - unfold MetrixHandler.size. rewrite Hb. cbn [BBox.x BBox.y].
    now rewrite !Rabs_pos_eq by lra.
  - rewrite anchor_otherwise by discriminate. rewrite Hb.
    cbn [BBox.x0 BBox.y0]. rewrite Rabs_left by lra.
    do 2 f_equal; lra.
Qed.

(** ** The path element *)

Lemma path_template_filled (p1 p2 p3 p4 p5 p6 p7 : R * R) :
  str_format VectorIcon.path_template
    (flat_map VectorIcon.pair_args [p1; p2; p3; p4; p5; p6; p7]) []
  = Ok (spec_path [p1; p2; p3; p4; p5; p6; p7]).
Proof.
  destruct p1, p2, p3, p4, p5, p6, p7. vm_compute. reflexivity.
Qed.

Lemma path_ok (h : MetrixHandler.t) (length : R)
    (head : VectorIconHead.t) (body : VectorIconBody.t) :
  VectorIcon.path h length head body =
    Ok (spec_path (map (rotate_pair h) (spec_deltas length head body))).
Proof.
  unfold VectorIcon.path, spec_deltas. cbn [map].
  unfold rotate_pair. cbn [fst snd].
  apply path_template_filled.
Qed.

(** C5: the seven coordinate pairs of the path, one move and six
    relative lines, are [rotate] applied to each delta of the arrow
    template in turn; the shaft delta is clamped at zero. *)
Theorem path_rotates_each_delta (h : MetrixHandler.t) (length : R)
    (head : VectorIconHead.t) (body : VectorIconBody.t) :
  let hw := VectorIconHead.width head in
  let hl := VectorIconHead.length head in
  let bw := VectorIconBody.width body in
  let deltas :=
    [ (0, - bw / 2); (0, bw); (Rmax (length - hl) 0, 0);
      (0, (hw - bw) / 2); (hl, - hw / 2); (- hl, - hw / 2);
      (0, (hw - bw) / 2) ] in
  VectorIcon.path h length head body =
    Ok (spec_path (map (fun d => MetrixHandler.rotate h (fst d) (snd d)) deltas))
  /\ 0 <= Rmax (length - hl) 0.
Proof.
  intros hw hl bw deltas. split.
  - apply path_ok.
  - apply Rmax_r.
Qed.

(** ** The group element *)

Lemma group_template_unfilled (args : list pyval) :
  str_format VectorIcon.group_template args [] = Raise (KeyError "line_color").
Proof. vm_compute. reflexivity. Qed.

Lemma group_scale_template_unfilled (args : list pyval) :
  str_format VectorIcon.group_scale_template args []
  = Raise (KeyError "line_color").
Proof. vm_compute. reflexivity. Qed.

Lemma group_raises (length : R) (head : VectorIconHead.t) (vector : markup) :
  VectorIcon.group length head vector = Raise (KeyError "line_color").
Proof.
  unfold VectorIcon.group, VectorIcon.select_group_template.
  destruct (Rlt_dec (VectorIconHead.length head) length).
  - apply group_template_unfilled.
  - apply group_scale_template_unfilled.
Qed.

Lemma init_raises (length angle : R)
    (head : VectorIconHead.t) (body : VectorIconBody.t)
    (color : string) (border_width : R) (border_color : option string)
    (anchor : string) (popup_anchor : option (Z * Z)) (class_name : string) :
  VectorIcon.init length angle head body color border_width border_color
    anchor popup_anchor class_name = Raise (KeyError "line_color").
Proof.
  unfold VectorIcon.init. rewrite path_ok. cbn [bind].
  rewrite group_raises. reflexivity.
Qed.

(** C6 (the code at the failing input): with head length 20 and length
    10 the constructor selects the template with the [transform]
    attribute and computes the scale [10 / 20], yet no group element is
    produced: formatting that template with the path as its only
    argument raises [KeyError] for the field [line_color]. *)
Theorem long_head_raises :
  VectorIcon.select_group_template 10 long_head
    = VectorIcon.group_scale_template
  /\ py_div 10 (VectorIconHead.length long_head) = Ok (1 / 2)
  /\ VectorIcon.init 10 0 long_head DEFAULT_BODY
       "black" 0 None "tail" None "empty"
     = Raise (KeyError "line_color").
Proof.
  split; [| split].
  - unfold VectorIcon.select_group_template, long_head.
    cbn [VectorIconHead.length].
    destruct (Rlt_dec 20 10) as [N | _]; [exfalso; lra | reflexivity].
  - unfold py_div, long_head. cbn [VectorIconHead.length].
    destruct (Req_dec_T 20 0) as [N | _]; [exfalso; lra |].
    f_equal. lra.
  - apply init_raises.
Qed.

(** C7 (the code at the failing input): the documented call
    [VectorIcon(100, math.pi / 2)] produces no markup; it raises
    [KeyError]. *)
Theorem documented_example_raises :
  VectorIcon.init 100 (PI / 2) DEFAULT_HEAD DEFAULT_BODY
    "black" 0 None "tail" None "empty"
  = Raise (KeyError "line_color").
Proof. apply init_raises. Qed.

(** C9 (the code at the failing input): for length 100, angle
    [pi / 2] and the default head and body the resolver holds the values
    of the scenario, margin 10, angle 0, tip [(100, 0)], box
    [(-10, -10, 120, 20)], size [(120, 20)] and tail anchor [(10, 10)],
    but the constructor raises [KeyError] before it hands the size and
    the anchor to its base class: no icon is constructed. *)
Theorem east_100_construction_raises :
  let h := VectorIcon.handler 100 (PI / 2) DEFAULT_HEAD DEFAULT_BODY in
  (MetrixHandler.margin h = 10
   /\ MetrixHandler.angle h = 0
   /\ (MetrixHandler.x h, MetrixHandler.y h) = (100, 0)
   /\ MetrixHandler.bbox h = BBox.mk (-10) (-10) 120 20
   /\ MetrixHandler.size h = (120, 20)
   /\ MetrixHandler.anchor h "tail" = Ok (10, 10))
  /\ VectorIcon.init 100 (PI / 2) DEFAULT_HEAD DEFAULT_BODY
       "black" 0 None "tail" None "empty"
     = Raise (KeyError "line_color")
  /\ forall icon,
       VectorIcon.init 100 (PI / 2) DEFAULT_HEAD DEFAULT_BODY
         "black" 0 None "tail" None "empty" <> Ok icon.
Proof.
  intros h. split; [apply east_100_resolver |].
  rewrite init_raises. split; [reflexivity | discriminate].
Qed.

(** ** [from_comp] *)

Lemma from_comp_pair (a b : R)
    (head : VectorIconHead.t) (body : VectorIconBody.t)
    (color : string) (border_width : R) (border_color : option string)
    (anchor : string) (popup_anchor : option (Z * Z)) (class_name : string) :
  VectorIcon.from_comp [a; b] head body color border_width border_color
    anchor popup_anchor class_name
  = VectorIcon.init (hypot b a) (atan2 b a) head body color border_width
      border_color anchor popup_anchor class_name.
Proof. reflexivity. Qed.

(** C8 (the code at the failing input): the documented call
    [VectorIcon.from_comp((100, 50))] hands length [hypot 50 100] and
    angle [atan2 50 100] to the constructor, and like the direct call it
    raises [KeyError]: neither yields a markup, a size or an anchor. *)
Theorem from_comp_example_raises :
  VectorIcon.from_comp [100; 50] DEFAULT_HEAD DEFAULT_BODY
    "black" 0 None "tail" None "empty"
  = Raise (KeyError "line_color")
  /\ VectorIcon.init (hypot 50 100) (atan2 50 100) DEFAULT_HEAD DEFAULT_BODY
       "black" 0 None "tail" None "empty"
     = Raise (KeyError "line_color")
  /\ forall icon,
       VectorIcon.from_comp [100; 50] DEFAULT_HEAD DEFAULT_BODY
         "black" 0 None "tail" None "empty" <> Ok icon.
Proof.
  rewrite from_comp_pair, init_raises.
  split; [reflexivity | split; [reflexivity | discriminate]].
Qed.

(** * Further properties of the resolver *)

Lemma extent_bounds (v m : R) :
  Rabs v + 2 * m <= spec_extent v m < Rabs v + 2 * m + 1.
Proof.
  unfold spec_extent.
  destruct (far_edge_cases v) as [(Hv & E & Hf & Ha) | (Hv & E & Hf & Ha)];
    rewrite Ha, E.
  - pose proof (Zceil_bound v). rewrite Rabs_pos_eq by assumption. lra.
  - pose proof (Zfloor_bound v). rewrite Rabs_left by assumption. lra.
Qed.

(** X1: with a non-negative margin [size] is the pair of extents of the
    bounding box, and both are at least [2 * margin]. *)
Theorem size_is_bbox_extent (h : MetrixHandler.t) :
  0 <= MetrixHandler.margin h ->
  MetrixHandler.size h
    = (BBox.x (MetrixHandler.bbox h), BBox.y (MetrixHandler.bbox h))
  /\ 2 * MetrixHandler.margin h <= fst (MetrixHandler.size h)
  /\ 2 * MetrixHandler.margin h <= snd (MetrixHandler.size h).
Proof.
  intros Hm. unfold MetrixHandler.size. rewrite bbox_fields.
  cbn [BBox.x BBox.y fst snd].
  destruct (axis_bounds (MetrixHandler.x h) _ Hm) as (X1 & _).
  destruct (axis_bounds (MetrixHandler.y h) _ Hm) as (Y1 & _).
  rewrite !Rabs_pos_eq by lra. repeat split; assumption.
Qed.

Lemma size_is_bbox_extent_witness :
  MetrixHandler.size example_handler
    = (BBox.x (MetrixHandler.bbox example_handler),
       BBox.y (MetrixHandler.bbox example_handler)).
Proof.
  apply (size_is_bbox_extent example_handler). simpl. lra.
Defined.

(** X2: the box is tight: on each axis its extent exceeds
    [abs offset + 2 * margin] by less than one unit. *)
Theorem bbox_tight (h : MetrixHandler.t) :
  let m := MetrixHandler.margin h in
  let b := MetrixHandler.bbox h in
  Rabs (MetrixHandler.x h) + 2 * m <= BBox.x b
    < Rabs (MetrixHandler.x h) + 2 * m + 1
  /\ Rabs (MetrixHandler.y h) + 2 * m <= BBox.y b
    < Rabs (MetrixHandler.y h) + 2 * m + 1.
Proof.
  intros m b. subst b. rewrite bbox_fields. cbn [BBox.x BBox.y].
  split; apply extent_bounds.
Qed.

(** X3: a vector of length zero has the box
    [(-margin, -margin, 2 * margin, 2 * margin)] at every angle, and its
    anchors of all kinds coincide. *)
Theorem zero_length_box (h : MetrixHandler.t) (kind : string) :
  MetrixHandler.length h = 0 ->
  let m := MetrixHandler.margin h in
  MetrixHandler.bbox h = BBox.mk (- m) (- m) (2 * m) (2 * m)
  /\ MetrixHandler.anchor h kind = Ok (Rabs m, Rabs m).
Proof.
  intros Hl m.
  assert (Hx : MetrixHandler.x h = 0)
    by (unfold MetrixHandler.x; rewrite Hl; ring).
  assert (Hy : MetrixHandler.y h = 0)
    by (unfold MetrixHandler.y; rewrite Hl; ring).
  assert (Hb : MetrixHandler.bbox h = BBox.mk (- m) (- m) (2 * m) (2 * m)).
  { unfold MetrixHandler.bbox. rewrite Hx, Hy.
    destruct (Rle_dec 0 0) as [_ | N]; [| exfalso; lra].
    rewrite Zceil_IZR, Rabs_R0. subst m. f_equal; ring. }
  split; [exact Hb |].
  unfold MetrixHandler.anchor. rewrite Hb, Hx, Hy.
  cbn [BBox.x0 BBox.y0]. rewrite Rabs_Ropp.
  destruct (String.eqb kind "head"); [| destruct (String.eqb kind "mid")];
    do 2 f_equal; lra.
Qed.

Lemma zero_length_box_witness :
  MetrixHandler.bbox (MetrixHandler.mk 0 1 10) = BBox.mk (- 10) (- 10) (2 * 10) (2 * 10)
  /\ MetrixHandler.anchor (MetrixHandler.mk 0 1 10) "head" = Ok (Rabs 10, Rabs 10).
Proof.
  apply (zero_length_box (MetrixHandler.mk 0 1 10) "head"). reflexivity.
Defined.

(** X4: with a non-negative margin the anchors are the positions of the
    tail and of the tip measured from the corner [(x0, y0)] of the
    box. *)
Theorem anchor_is_offset_from_corner (h : MetrixHandler.t) :
  0 <= MetrixHandler.margin h ->
  let b := MetrixHandler.bbox h in
  MetrixHandler.anchor h "tail" = Ok (0 - BBox.x0 b, 0 - BBox.y0 b)
  /\ MetrixHandler.anchor h "head"
     = Ok (MetrixHandler.x h - BBox.x0 b, MetrixHandler.y h - BBox.y0 b)
  /\ MetrixHandler.anchor h "mid"
     = Ok (MetrixHandler.x h / 2 - BBox.x0 b,
           MetrixHandler.y h / 2 - BBox.y0 b).
Proof.
  intros Hm b. subst b.
  destruct (axis_bounds (MetrixHandler.x h) _ Hm) as (_ & _ & _ & _ & X).
  destruct (axis_bounds (MetrixHandler.y h) _ Hm) as (_ & _ & _ & _ & Y).
  rewrite anchor_otherwise by discriminate.
  rewrite anchor_head, anchor_mid, bbox_fields. cbn [BBox.x0 BBox.y0].
  rewrite X, Y. repeat split; do 2 f_equal; lra.
Qed.

Lemma anchor_is_offset_from_corner_witness :
  MetrixHandler.anchor example_handler "tail"
  = Ok (0 - BBox.x0 (MetrixHandler.bbox example_handler),
        0 - BBox.y0 (MetrixHandler.bbox example_handler)).
Proof.
  apply (anchor_is_offset_from_corner example_handler). simpl. lra.
Defined.

(** ** Turning the vector *)

(** X7: rotating by [angle] and then by [- angle] gives the point
    back. *)
Theorem rotate_inverse (h : MetrixHandler.t) (px py : R) :
  let h' := with_angle h (- MetrixHandler.angle h) in
  let p := MetrixHandler.rotate h px py in
  MetrixHandler.rotate h' (fst p) (snd p) = (px, py)
  /\ MetrixHandler.rotate h
       (fst (MetrixHandler.rotate h' px py))
       (snd (MetrixHandler.rotate h' px py)) = (px, py).
Proof.
  intros h' p. subst p. pose proof (cos_sin_unit h) as U.
  assert (Hc : MetrixHandler.cos h' = MetrixHandler.cos h).
  { unfold MetrixHandler.cos, h', with_angle. cbn [MetrixHandler.angle].
    apply cos_neg. }
  assert (Hs : MetrixHandler.sin h' = - MetrixHandler.sin h).
  { unfold MetrixHandler.sin, h', with_angle. cbn [MetrixHandler.angle].
    apply sin_neg. }
  unfold MetrixHandler.rotate. cbn [fst snd]. rewrite Hc, Hs.
  set (c := MetrixHandler.cos h) in *. set (s := MetrixHandler.sin h) in *.
  split; f_equal.
  - transitivity ((c * c + s * s) * px); [ring | rewrite U; ring].
  - transitivity ((c * c + s * s) * py); [ring | rewrite U; ring].
  - transitivity ((c * c + s * s) * px); [ring | rewrite U; ring].
  - transitivity ((c * c + s * s) * py); [ring | rewrite U; ring].
Qed.

(** X8: rotations compose by adding their angles. *)
Theorem rotate_compose (h : MetrixHandler.t) (a b px py : R) :
  let p := MetrixHandler.rotate (with_angle h a) px py in
  MetrixHandler.rotate (with_angle h b) (fst p) (snd p)
  = MetrixHandler.rotate (with_angle h (a + b)) px py.
Proof.
  intros p. subst p.
  unfold MetrixHandler.rotate, MetrixHandler.cos, MetrixHandler.sin,
    with_angle.
  cbn [MetrixHandler.angle fst snd]. rewrite cos_plus, sin_plus.
  f_equal; ring.
Qed.

(** ** Integer boxes *)

Lemma integer_axis (v : R) (k : Z) :
  is_integer (spec_near_edge v (IZR k)) /\ is_integer (spec_extent v (IZR k)).
Proof.
  unfold spec_extent, spec_near_edge, spec_far_edge, is_integer.
  destruct (Rle_dec 0 v).
  - split.
    + exists (- k)%Z. now rewrite opp_IZR.
    + exists (Z.abs (Zceil v) + 2 * k)%Z.
      now rewrite plus_IZR, mult_IZR, abs_IZR.
  - split.
    + exists (Zfloor v - k)%Z. now rewrite minus_IZR.
    + exists (Z.abs (Zfloor v) + 2 * k)%Z.
      now rewrite plus_IZR, mult_IZR, abs_IZR.
Qed.

(** X9: when the margin is an integer, the four entries of the box, and
    hence of the view box, are integers, and so is the size. *)
Theorem integer_margin_integer_bbox (h : MetrixHandler.t) :
  is_integer (MetrixHandler.margin h) ->
  let b := MetrixHandler.bbox h in
  is_integer (BBox.x0 b) /\ is_integer (BBox.y0 b)
  /\ is_integer (BBox.x b) /\ is_integer (BBox.y b)
  /\ is_integer (fst (MetrixHandler.size h))
  /\ is_integer (snd (MetrixHandler.size h)).
Proof.
  intros [k Hk] b. subst b. unfold MetrixHandler.size.
  rewrite bbox_fields, Hk. cbn [BBox.x0 BBox.y0 BBox.x BBox.y fst snd].
  destruct (integer_axis (MetrixHandler.x h) k) as [Xn [zx Xe]].
  destruct (integer_axis (MetrixHandler.y h) k) as [Yn [zy Ye]].
  repeat split; try assumption.
  - now exists zx.
  - now exists zy.
  - exists (Z.abs zx). now rewrite Xe, abs_IZR.
  - exists (Z.abs zy). now rewrite Ye, abs_IZR.
Qed.

Lemma integer_margin_integer_bbox_witness :
  is_integer (BBox.x0 (MetrixHandler.bbox example_handler)).
Proof.
  apply (integer_margin_integer_bbox example_handler).
  exists 10%Z. reflexivity.
Defined.

(** * Further properties of the icon *)

(** ** The polygon handed to the path *)

Lemma path_formats_deltas (h : MetrixHandler.t) (length : R)
    (head : VectorIconHead.t) (body : VectorIconBody.t) :
  VectorIcon.path h length head body
  = str_format VectorIcon.path_template
      (flat_map VectorIcon.pair_args (path_deltas h length head body)) [].
Proof. reflexivity. Qed.

Lemma pair_eq (a b c d : R) : a = c -> b = d -> (a, b) = (c, d).
Proof. intros -> ->. reflexivity. Qed.

Lemma polygon_is_rotated_template (h : MetrixHandler.t) (length : R)
    (head : VectorIconHead.t) (body : VectorIconBody.t) :
  polygon h length head body
  = map (rotate_pair h) (template_vertices length head body).
Proof.
  unfold polygon, path_deltas, template_vertices, rotate_pair,
    MetrixHandler.rotate.
  cbn [trace map fst snd].
  repeat (apply (f_equal2 cons); [apply pair_eq; field |]). reflexivity.
Qed.

(** X10: the arguments of the path template are the seven pairs of
    [path_deltas], and, taken as exact values before they are written
    with seven digits, their running sums are the rotated vertices of the
    arrow template: rotating delta by delta describes the rotated
    polygon. *)
Theorem path_deltas_describe_rotated_template (h : MetrixHandler.t)
    (length : R) (head : VectorIconHead.t) (body : VectorIconBody.t) :
  VectorIcon.path h length head body
  = str_format VectorIcon.path_template
      (flat_map VectorIcon.pair_args (path_deltas h length head body)) []
  /\ polygon h length head body
     = map (rotate_pair h) (template_vertices length head body).
Proof.
  split; [apply path_formats_deltas | apply polygon_is_rotated_template].
Qed.

Lemma cos_sin_range (h : MetrixHandler.t) :
  -1 <= MetrixHandler.cos h <= 1 /\ -1 <= MetrixHandler.sin h <= 1.
Proof.
  unfold MetrixHandler.cos, MetrixHandler.sin.
  split; [apply COS_bound | apply SIN_bound].
Qed.

(** A point that lies along the vector, no further than its length, and
    at most half a margin aside, is rotated into the box. *)

Lemma rotate_in_bbox (h : MetrixHandler.t) (t o : R) :
  0 <= t <= MetrixHandler.length h ->
  - (MetrixHandler.margin h / 2) <= o <= MetrixHandler.margin h / 2 ->
  in_bbox (MetrixHandler.bbox h) (MetrixHandler.rotate h t o).
Proof.
  intros Ht Ho.
  assert (Hm : 0 <= MetrixHandler.margin h) by lra.
  destruct (axis_bounds (MetrixHandler.x h) _ Hm) as (_ & X2 & X3 & _).
  destruct (axis_bounds (MetrixHandler.y h) _ Hm) as (_ & Y2 & Y3 & _).
  destruct (cos_sin_range h) as [Hc Hs].
  unfold in_bbox, within. rewrite bbox_fields.
  cbn [BBox.x0 BBox.y0 BBox.x BBox.y].
  revert X2 X3 Y2 Y3. unfold Rmin, Rmax, MetrixHandler.x, MetrixHandler.y,
    MetrixHandler.rotate. cbn [fst snd].
  set (c := MetrixHandler.cos h) in *. set (s := MetrixHandler.sin h) in *.
  set (L := MetrixHandler.length h) in *.
  set (m := MetrixHandler.margin h) in *.
  assert (Hso : - (m / 2) <= s * o <= m / 2) by nra.
  assert (Hco : - (m / 2) <= c * o <= m / 2) by nra.
  assert (Hct : (0 <= c * t <= L * c) \/ (L * c <= c * t <= 0)).
  { destruct (Rle_dec 0 c); [left | right]; nra. }
  assert (Hst : (0 <= s * t <= L * s) \/ (L * s <= s * t <= 0)).
  { destruct (Rle_dec 0 s); [left | right]; nra. }
  destruct (Rle_dec 0 (L * c)); destruct (Rle_dec 0 (L * s)); intros;
    split; split; lra.
Qed.

(** X11: when the head is no longer than the vector and all metrics are
    non-negative, the seven vertices described by the arguments of the
    path template, as exact values before they are written with seven
    digits, lie in the bounding box of the resolver of the
    constructor. *)
Theorem polygon_within_bbox (length angle : R)
    (head : VectorIconHead.t) (body : VectorIconBody.t) :
  0 <= VectorIconHead.length head <= length ->
  0 <= VectorIconHead.width head ->
  0 <= VectorIconBody.width body ->
  let h := VectorIcon.handler length angle head body in
  VectorIcon.path h length head body
  = str_format VectorIcon.path_template
      (flat_map VectorIcon.pair_args (path_deltas h length head body)) []
  /\ List.length (polygon h length head body) = 7%nat
  /\ Forall (in_bbox (MetrixHandler.bbox h)) (polygon h length head body).
Proof.
  intros Hl Hw Hb h.
  split; [apply path_formats_deltas |].
  rewrite polygon_is_rotated_template. split; [reflexivity |].
  assert (Hlen : MetrixHandler.length h = length) by reflexivity.
  assert (Hmax : VectorIconHead.length head <= MetrixHandler.margin h
                 /\ VectorIconHead.width head <= MetrixHandler.margin h
                 /\ VectorIconBody.width body <= MetrixHandler.margin h).
  { unfold h, VectorIcon.handler. cbn [MetrixHandler.margin].
    pose proof (Rmax_l (VectorIconHead.length head) (VectorIconHead.width head)).
    pose proof (Rmax_r (VectorIconHead.length head) (VectorIconHead.width head)).
    pose proof (Rmax_l (Rmax (VectorIconHead.length head)
                             (VectorIconHead.width head))
                       (VectorIconBody.width body)).
    pose proof (Rmax_r (Rmax (VectorIconHead.length head)
                             (VectorIconHead.width head))
                       (VectorIconBody.width body)).
    repeat split; lra. }
  destruct Hmax as (M1 & M2 & M3).
  unfold template_vertices.
  rewrite (Rmax_left (length - VectorIconHead.length head) 0) by lra.
  cbn [map]. unfold rotate_pair. cbn [fst snd].
  repeat apply Forall_cons; try apply Forall_nil;
    apply rotate_in_bbox; rewrite ?Hlen; lra.
Qed.

Lemma polygon_within_bbox_witness :
  Forall (in_bbox (MetrixHandler.bbox
            (VectorIcon.handler 100 0 DEFAULT_HEAD DEFAULT_BODY)))
    (polygon (VectorIcon.handler 100 0 DEFAULT_HEAD DEFAULT_BODY)
       100 DEFAULT_HEAD DEFAULT_BODY).
Proof.
  apply (polygon_within_bbox 100 0 DEFAULT_HEAD DEFAULT_BODY);
    simpl; lra.
Defined.





(** ** Directions *)

(** X14: the angle of the constructor is measured from the upward
    vertical, clockwise on the screen: the endpoint of the resolver is
    [(length * sin angle, - length * cos angle)]. *)
Theorem angle_is_clockwise_from_up (length angle : R)
    (head : VectorIconHead.t) (body : VectorIconBody.t) :
  let h := VectorIcon.handler length angle head body in
  MetrixHandler.x h = length * sin angle
  /\ MetrixHandler.y h = - (length * cos angle).
Proof.
  intros h.
  unfold MetrixHandler.x, MetrixHandler.y, MetrixHandler.cos,
    MetrixHandler.sin, h, VectorIcon.handler.
  cbn [MetrixHandler.length MetrixHandler.angle].
  rewrite cos_minus, sin_minus, cos_PI2, sin_PI2. split; ring.
Qed.

Lemma hypot_nonneg (a b : R) : 0 <= hypot a b.
Proof. apply sqrt_pos. Qed.

Lemma hypot_square (a b : R) : hypot a b * hypot a b = a * a + b * b.
Proof. unfold hypot. apply sqrt_sqrt. nra. Qed.

Lemma sqrt_one_plus_square (t : R) :
  0 < sqrt (1 + t²) /\ sqrt (1 + t²) * sqrt (1 + t²) = 1 + t * t.
Proof.
  assert (H : 0 < 1 + t²) by (unfold Rsqr; nra).
  split; [now apply sqrt_lt_R0 |].
  rewrite sqrt_sqrt by lra. reflexivity.
Qed.

Lemma hypot_pos_abscissa (b a : R) :
  0 < a -> hypot b a = a * sqrt (1 + (b / a)²).
Proof.
  intros Ha. destruct (sqrt_one_plus_square (b / a)) as [Hs Hq].
  unfold hypot. apply sqrt_lem_1; [nra | nra |].
  transitivity (a * a * (sqrt (1 + (b / a)²) * sqrt (1 + (b / a)²)));
    [ring |].
  rewrite Hq. field. lra.
Qed.

Lemma hypot_neg_abscissa (b a : R) :
  a < 0 -> hypot b a = - a * sqrt (1 + (b / a)²).
Proof.
  intros Ha. destruct (sqrt_one_plus_square (b / a)) as [Hs Hq].
  unfold hypot. apply sqrt_lem_1; [nra | nra |].
  transitivity (a * a * (sqrt (1 + (b / a)²) * sqrt (1 + (b / a)²)));
    [ring |].
  rewrite Hq. field. lra.
Qed.

(** [atan2 b a] is the direction of the point [(a, b)]. *)

Lemma hypot_atan2 (b a : R) :
  hypot b a * cos (atan2 b a) = a /\ hypot b a * sin (atan2 b a) = b.
Proof.
  unfold atan2.
  destruct (Rlt_dec 0 a) as [Ha | Ha].
  - destruct (sqrt_one_plus_square (b / a)) as [Hs _].
    rewrite (hypot_pos_abscissa b a Ha), cos_atan, sin_atan.
    split; field; lra.
  - destruct (Rlt_dec a 0) as [Hn | Hn].
    + destruct (sqrt_one_plus_square (b / a)) as [Hs _].
      rewrite (hypot_neg_abscissa b a Hn).
      destruct (Rle_dec 0 b).
      * rewrite neg_cos, neg_sin, cos_atan, sin_atan. split; field; lra.
      * rewrite cos_minus, sin_minus, cos_PI, sin_PI, cos_atan, sin_atan.
        split; field; lra.
    + assert (a = 0) by lra. subst a.
      assert (Hh : hypot b 0 = Rabs b).
      { unfold hypot. rewrite Rmult_0_l, Rplus_0_r.
        fold (Rsqr b). apply sqrt_Rsqr_abs. }
      rewrite Hh.
      destruct (Rlt_dec 0 b) as [Hb | Hb].
      * rewrite cos_PI2, sin_PI2, Rabs_pos_eq by lra. split; ring.
      * destruct (Rlt_dec b 0) as [Hb' | Hb'].
        -- rewrite cos_neg, sin_neg, cos_PI2, sin_PI2, Rabs_left by lra.
           split; ring.
        -- assert (b = 0) by lra. subst b. rewrite Rabs_R0. split; ring.
Qed.

(** X15: an icon made from the components [(lat, lon)] has its endpoint
    at [(lon, - lat)]: the longitude component points right and the
    latitude component points up on the screen. *)
Theorem from_comp_endpoint (lat lon : R)
    (head : VectorIconHead.t) (body : VectorIconBody.t) :
  let h := VectorIcon.handler (hypot lon lat) (atan2 lon lat) head body in
  MetrixHandler.x h = lon /\ MetrixHandler.y h = - lat.
Proof.
  intros h.
  destruct (angle_is_clockwise_from_up (hypot lon lat) (atan2 lon lat)
              head body) as [Hx Hy].
  destruct (hypot_atan2 lon lat) as [Hc Hs].
  fold h in Hx, Hy. rewrite Hx, Hy, Hc, Hs. split; reflexivity.
Qed.

(** ** Outcomes of the constructors *)

(** X16: for every input the constructor raises [KeyError] for
    [line_color]; it never returns an icon. *)
Theorem constructor_never_returns (length angle : R)
    (head : VectorIconHead.t) (body : VectorIconBody.t)
    (color : string) (border_width : R) (border_color : option string)
    (anchor : string) (popup_anchor : option (Z * Z)) (class_name : string) :
  VectorIcon.init length angle head body color border_width border_color
    anchor popup_anchor class_name = Raise (KeyError "line_color")
  /\ forall icon,
       VectorIcon.init length angle head body color border_width
         border_color anchor popup_anchor class_name <> Ok icon.
Proof.
  rewrite init_raises. split; [reflexivity | discriminate].
Qed.

(** X17: [from_comp] raises [IndexError] when given fewer than two
    components, and ignores every component after the second. *)
Theorem from_comp_components (a b : R) (rest : list R)
    (head : VectorIconHead.t) (body : VectorIconBody.t)
    (color : string) (border_width : R) (border_color : option string)
    (anchor : string) (popup_anchor : option (Z * Z)) (class_name : string) :
  VectorIcon.from_comp [] head body color border_width border_color
    anchor popup_anchor class_name = Raise IndexError
  /\ VectorIcon.from_comp [a] head body color border_width border_color
       anchor popup_anchor class_name = Raise IndexError
  /\ VectorIcon.from_comp (a :: b :: rest) head body color border_width
       border_color anchor popup_anchor class_name
     = VectorIcon.from_comp [a; b] head body color border_width
         border_color anchor popup_anchor class_name.
Proof. repeat split; reflexivity. Qed.

(** ** The root element *)

(** X18: the last [format] call fills the root template from the box
    and the group alone: the view box holds [x0 y0 x y] in this order,
    and the keyword arguments [angle], [scale], [color], [line_width]
    and [line_color] leave no trace in its result. *)
Theorem svg_uses_bbox_and_vector_only (angle scale line_width : R)
    (color line_color : markup) (vector : markup) (b : BBox.t) :
  str_format VectorIcon.svg_template []
    [("angle"%string, VNum angle);
     ("vector"%string, VStr vector);
     ("bbox"%string, VBBox b);
     ("scale"%string, VNum scale);
     ("color"%string, VStr color);
     ("line_width"%string, VNum line_width);
     ("line_color"%string, VStr line_color)]
  = Ok (Text ("<svg xmlns=" ++ VectorIcon.dq ++ "http://www.w3.org/2000/svg"
              ++ VectorIcon.dq ++ " version=" ++ VectorIcon.dq ++ "1.1"
              ++ VectorIcon.dq ++ " viewBox=" ++ VectorIcon.dq)
        :: Num "" (BBox.x0 b) :: Text " "
        :: Num "" (BBox.y0 b) :: Text " "
        :: Num "" (BBox.x b) :: Text " "
        :: Num "" (BBox.y b)
        :: text (VectorIcon.dq ++ ">") (cat vector [Text "</svg>"])).
Proof. destruct b. vm_compute. reflexivity. Qed.

(** ** The resolver of the constructor *)

(** X19: the margin of the constructor is the largest of the three
    metrics; as soon as one metric is non-negative the margin is
    non-negative, the box holds the endpoint, and every anchor lies in
    the icon. *)
Theorem constructor_resolver_sound (length angle : R)
    (head : VectorIconHead.t) (body : VectorIconBody.t) (kind : string) :
  0 <= VectorIconHead.length head
  \/ 0 <= VectorIconHead.width head
  \/ 0 <= VectorIconBody.width body ->
  let h := VectorIcon.handler length angle head body in
  let m := MetrixHandler.margin h in
  VectorIconHead.length head <= m
  /\ VectorIconHead.width head <= m
  /\ VectorIconBody.width body <= m
  /\ 0 <= m
  /\ in_bbox (MetrixHandler.bbox h) (MetrixHandler.x h, MetrixHandler.y h)
  /\ exists ax ay,
       MetrixHandler.anchor h kind = Ok (ax, ay)
       /\ within 0 (fst (MetrixHandler.size h)) ax
       /\ within 0 (snd (MetrixHandler.size h)) ay.
Proof.
  intros Hpos h m.
  assert (Hmax : VectorIconHead.length head <= m
                 /\ VectorIconHead.width head <= m
                 /\ VectorIconBody.width body <= m).
  { unfold m, h, VectorIcon.handler. cbn [MetrixHandler.margin].
    pose proof (Rmax_l (VectorIconHead.length head) (VectorIconHead.width head)).
    pose proof (Rmax_r (VectorIconHead.length head) (VectorIconHead.width head)).
    pose proof (Rmax_l (Rmax (VectorIconHead.length head)
                             (VectorIconHead.width head))
                       (VectorIconBody.width body)).
    pose proof (Rmax_r (Rmax (VectorIconHead.length head)
                             (VectorIconHead.width head))
                       (VectorIconBody.width body)).
    repeat split; lra. }
  destruct Hmax as (M1 & M2 & M3).
  assert (Hm : 0 <= MetrixHandler.margin h) by (fold m; lra).
  repeat split; try assumption.
  - rewrite bbox_fields. cbn [BBox.x0 BBox.x fst].
    apply (axis_bounds (MetrixHandler.x h) _ Hm).
  - rewrite bbox_fields. cbn [BBox.x0 BBox.x fst].
    apply (axis_bounds (MetrixHandler.x h) _ Hm).
  - rewrite bbox_fields. cbn [BBox.y0 BBox.y snd].
    apply (axis_bounds (MetrixHandler.y h) _ Hm).
  - rewrite bbox_fields. cbn [BBox.y0 BBox.y snd].
    apply (axis_bounds (MetrixHandler.y h) _ Hm).
  - destruct (axis_anchor (MetrixHandler.x h) _ Hm) as (Xt & Xh & Xm).
    destruct (axis_anchor (MetrixHandler.y h) _ Hm) as (Yt & Yh & Ym).
    destruct (axis_bounds (MetrixHandler.x h) _ Hm) as (X1 & _).
    destruct (axis_bounds (MetrixHandler.y h) _ Hm) as (Y1 & _).
    unfold MetrixHandler.anchor, MetrixHandler.size. rewrite bbox_fields.
    cbn [BBox.x0 BBox.y0 BBox.x BBox.y fst snd].
    rewrite (Rabs_pos_eq (spec_extent (MetrixHandler.x h) _)) by lra.
    rewrite (Rabs_pos_eq (spec_extent (MetrixHandler.y h) _)) by lra.
    destruct (String.eqb kind "head"); [| destruct (String.eqb kind "mid")];
      do 2 eexists; (split; [reflexivity | split; assumption]).
Qed.

Lemma constructor_resolver_sound_witness :
  0 <= MetrixHandler.margin (VectorIcon.handler 100 0 DEFAULT_HEAD DEFAULT_BODY).
Proof.
  apply (constructor_resolver_sound 100 0 DEFAULT_HEAD DEFAULT_BODY "tail").
  left. simpl. lra.
Defined.
